(** * HSI accelerator driver: register-level control protocol

    Shallow embedding of the C driver in [sw/hsi_accel_regs.h],
    [sw/hsi_accel.h] and [sw/hsi_accel.c].  Every register access goes
    through a memory-mapped bus, modelled as an abstract device with a read
    and a write operation on absolute addresses.  The driver runs in a state
    monad over the device state together with the log of bus accesses it has
    performed, so that claims about which registers are read or written can be
    stated on the log. *)

From Stdlib Require Import ZArith List Bool Lia.
Import ListNotations.
Open Scope Z_scope.

(** ** Constants of [hsi_accel_regs.h] *)

Definition HSI_ACCEL_PERIPH_BASE : Z := 268435456. (* 0x10000000UL *)

Definition HSI_ACCEL_OPCODE_OFFSET : Z := 0.       (* 0x00 *)
Definition HSI_ACCEL_NUM_BANDS_OFFSET : Z := 4.    (* 0x04 *)
Definition HSI_ACCEL_COMMAND_OFFSET : Z := 8.      (* 0x08 *)
Definition HSI_ACCEL_STATUS_OFFSET : Z := 12.      (* 0x0C *)
Definition HSI_ACCEL_FIFO_STATUS_OFFSET : Z := 16. (* 0x10 *)

Definition HSI_ACCEL_CMD_START_BIT : Z := 0.
Definition HSI_ACCEL_CMD_CLEAR_DONE_BIT : Z := 1.
Definition HSI_ACCEL_CMD_CLEAR_ERROR_BIT : Z := 2.

Definition HSI_ACCEL_STATUS_DONE_BIT : Z := 0.
Definition HSI_ACCEL_STATUS_ERROR_SHIFT : Z := 1.
Definition HSI_ACCEL_STATUS_ERROR_WIDTH : Z := 4.
(** [(((1u<<WIDTH)-1) << SHIFT)], all in [uint32_t]. *)
Definition HSI_ACCEL_STATUS_ERROR_MASK : Z :=
  Z.shiftl (Z.shiftl 1 HSI_ACCEL_STATUS_ERROR_WIDTH - 1)
           HSI_ACCEL_STATUS_ERROR_SHIFT.
Definition HSI_ACCEL_STATUS_BUSY_BIT : Z := 8.

(** [uint32_t] values: reduction modulo 2^32. *)
Definition u32 (x : Z) : Z := x mod 2 ^ 32.

(** Absolute bus addresses [HSI_ACCEL_PERIPH_BASE + off]. *)
Definition reg_addr (off : Z) : Z := HSI_ACCEL_PERIPH_BASE + off.
Definition OPCODE_ADDR : Z := reg_addr HSI_ACCEL_OPCODE_OFFSET.
Definition NUM_BANDS_ADDR : Z := reg_addr HSI_ACCEL_NUM_BANDS_OFFSET.
Definition COMMAND_ADDR : Z := reg_addr HSI_ACCEL_COMMAND_OFFSET.
Definition STATUS_ADDR : Z := reg_addr HSI_ACCEL_STATUS_OFFSET.

(** C conversion of an integer to [bool]: nonzero is [true]. *)
Definition to_bool (x : Z) : bool := negb (x =? 0).

(** One volatile access on the bus. *)
Inductive access : Type :=
| Rd (addr : Z)
| Wr (addr val : Z).

(** The register discipline of the map: OPCODE and NUM_BANDS are read and
    written, COMMAND is write-only, STATUS is read-only, and nothing else of
    the block (FIFO_STATUS) is used by the driver. *)
Definition access_ok (x : access) : bool :=
  match x with
  | Rd a => (a =? OPCODE_ADDR) || (a =? NUM_BANDS_ADDR) || (a =? STATUS_ADDR)
  | Wr a _ => (a =? OPCODE_ADDR) || (a =? NUM_BANDS_ADDR) || (a =? COMMAND_ADDR)
  end.

(** ** The example application [examples/hsi_accel/main.c] *)

Definition TEST_OPCODE : Z := 1.
Definition TEST_NUM_BANDS : Z := 2.

(** The arguments of one [printf] call are evaluated in an order C leaves
    unspecified: [order3] names the six possible orders of three calls. *)
Inductive order3 : Type :=
| O123 | O132 | O213 | O231 | O312 | O321.

(** What [main] reads and prints: the read-back OP_CODE and NUM_BANDS, the
    STATUS after the wait with the DONE/BUSY/ERR values passed alongside it,
    and the STATUS after the clears with its DONE/ERR values. *)
Record report : Type := {
  rep_opcode : Z;
  rep_num_bands : Z;
  rep_status : Z;
  rep_done : bool;
  rep_busy : bool;
  rep_err : Z;
  rep_status_post : Z;
  rep_done_post : bool;
  rep_err_post : Z
}.

(** ** Accelerator side of the COMMAND register *)

(** Modelled from the spec: the accelerator's reaction to a COMMAND write
    (its hardware description is not among the C sources).  Section 3 of the
    spec: bit 1 (CLEAR_DONE) deasserts DONE (STATUS bit 0), bit 2
    (CLEAR_ERROR) clears ERROR_CODE (STATUS bits 1-4) to zero; a bit written
    as 0 is a no-op and each bit is handled independently.  The effect of
    START is device-defined and is not part of this function. *)
Definition command_effect (cmd status : Z) : Z :=
  let s1 := if Z.testbit cmd HSI_ACCEL_CMD_CLEAR_DONE_BIT
            then Z.clearbit status HSI_ACCEL_STATUS_DONE_BIT else status in
  if Z.testbit cmd HSI_ACCEL_CMD_CLEAR_ERROR_BIT
  then Z.land s1 (Z.lnot HSI_ACCEL_STATUS_ERROR_MASK) else s1.

(** Field decoders of a STATUS value, straight from the bit table of the
    spec; used to state the claims. *)
Definition status_done (s : Z) : bool := Z.testbit s 0.
Definition status_error (s : Z) : Z := Z.shiftr s 1 mod 2 ^ 4.
Definition status_busy (s : Z) : bool := Z.testbit s 8.

(** ** The driver *)

Section Driver.

(** The device behind the bus: its state, what a 32-bit load at an address
    returns (a load may make the device evolve, e.g. advance a simulated
    clock), and what a 32-bit store does. *)
Context {St : Type}.
Context (bus_read : St -> Z -> Z * St).
Context (bus_write : St -> Z -> Z -> St).

(** Driver state: the device and the log of accesses, oldest first. *)
Definition World : Type := (St * list access)%type.

Definition M (A : Type) : Type := World -> A * World.

Definition ret {A} (a : A) : M A := fun w => (a, w).

Definition bind {A B} (m : M A) (k : A -> M B) : M B :=
  fun w => let (a, w') := m w in k a w'.

Local Notation "x <- m ;; k" := (bind m (fun x => k))
  (at level 61, m at next level, right associativity).
Local Notation "m ;; k" := (bind m (fun _ => k))
  (at level 61, right associativity).

(** [*(volatile uint32_t* )(BASE + off) = v] *)
Definition hsi_accel_write_reg (off v : Z) : M unit :=
  fun '(s, log) =>
    let a := reg_addr off in
    (tt, (bus_write s a (u32 v), log ++ [Wr a (u32 v)])).

(** [return *(volatile uint32_t* )(BASE + off)] *)
Definition hsi_accel_read_reg (off : Z) : M Z :=
  fun '(s, log) =>
    let a := reg_addr off in
    let (v, s') := bus_read s a in
    (u32 v, (s', log ++ [Rd a])).

Definition hsi_accel_set_opcode (code : Z) : M unit :=
  hsi_accel_write_reg HSI_ACCEL_OPCODE_OFFSET code.
Definition hsi_accel_get_opcode : M Z :=
  hsi_accel_read_reg HSI_ACCEL_OPCODE_OFFSET.

Definition hsi_accel_set_num_bands (nb : Z) : M unit :=
  hsi_accel_write_reg HSI_ACCEL_NUM_BANDS_OFFSET nb.
Definition hsi_accel_get_num_bands : M Z :=
  hsi_accel_read_reg HSI_ACCEL_NUM_BANDS_OFFSET.

Definition hsi_accel_start : M unit :=
  hsi_accel_write_reg HSI_ACCEL_COMMAND_OFFSET
    (Z.shiftl 1 HSI_ACCEL_CMD_START_BIT).
Definition hsi_accel_clear_done : M unit :=
  hsi_accel_write_reg HSI_ACCEL_COMMAND_OFFSET
    (Z.shiftl 1 HSI_ACCEL_CMD_CLEAR_DONE_BIT).
Definition hsi_accel_clear_error : M unit :=
  hsi_accel_write_reg HSI_ACCEL_COMMAND_OFFSET
    (Z.shiftl 1 HSI_ACCEL_CMD_CLEAR_ERROR_BIT).

Definition hsi_accel_get_status : M Z :=
  hsi_accel_read_reg HSI_ACCEL_STATUS_OFFSET.

(** [(get_status() >> DONE_BIT) & 1], converted to [bool]. *)
Definition hsi_accel_is_done : M bool :=
  s <- hsi_accel_get_status ;;
  ret (to_bool (Z.land (Z.shiftr s HSI_ACCEL_STATUS_DONE_BIT) 1)).

(** [(get_status() & ERROR_MASK) >> ERROR_SHIFT] *)
Definition hsi_accel_get_error : M Z :=
  s <- hsi_accel_get_status ;;
  ret (Z.shiftr (Z.land s HSI_ACCEL_STATUS_ERROR_MASK)
                HSI_ACCEL_STATUS_ERROR_SHIFT).

(** [(get_status() >> BUSY_BIT) & 1], converted to [bool]. *)
Definition hsi_accel_is_busy : M bool :=
  s <- hsi_accel_get_status ;;
  ret (to_bool (Z.land (Z.shiftr s HSI_ACCEL_STATUS_BUSY_BIT) 1)).

(** [hsi_accel.h] *)
Definition hsi_accel_init : M unit :=
  hsi_accel_clear_done ;;
  hsi_accel_clear_error.

Definition hsi_accel_configure (opcode num_bands : Z) : M unit :=
  hsi_accel_set_opcode opcode ;;
  hsi_accel_set_num_bands num_bands.

Definition hsi_accel_launch : M unit := hsi_accel_start.

Definition hsi_accel_error : M Z := hsi_accel_get_error.

(** [hsi_accel.c]:
<<
    while (timeout_ciclos--) {
        if (hsi_accel_is_done())
            return true;
    }
    return false;
>>
    The loop counter is a [uint32_t]: the test [timeout_ciclos--] is false
    exactly when the counter is 0, and otherwise the body runs with the
    counter one smaller, so the loop is a recursion on the counter as a
    natural number. *)
Fixpoint wait_done_loop (timeout_ciclos : nat) : M bool :=
  match timeout_ciclos with
  | O => ret false
  | S t =>
      d <- hsi_accel_is_done ;;
      if d then ret true else wait_done_loop t
  end.

Definition hsi_accel_wait_done (timeout_ciclos : Z) : M bool :=
  wait_done_loop (Z.to_nat (u32 timeout_ciclos)).

(** The device state after [k] consecutive STATUS loads from [s], with no
    other access in between, and the value the next such load returns.
    These describe the device's own evolution while it is being polled. *)
Fixpoint poll_state (s : St) (k : nat) : St :=
  match k with
  | O => s
  | S k' => poll_state (snd (bus_read s STATUS_ADDR)) k'
  end.

Definition poll_value (s : St) (k : nat) : Z :=
  u32 (fst (bus_read (poll_state s k) STATUS_ADDR)).

(** A computation appends to the log only accesses allowed by
    [access_ok]. *)
Definition accesses_ok {A} (m : M A) : Prop :=
  forall s log, exists new,
    snd (snd (m (s, log))) = log ++ new /\ forallb access_ok new = true.

(** Three calls evaluated in the order [o], results in argument order. *)
Definition eval3 {A B C} (o : order3) (a : M A) (b : M B) (c : M C)
  : M (A * B * C) :=
  match o with
  | O123 => x <- a ;; y <- b ;; z <- c ;; ret (x, y, z)
  | O132 => x <- a ;; z <- c ;; y <- b ;; ret (x, y, z)
  | O213 => y <- b ;; x <- a ;; z <- c ;; ret (x, y, z)
  | O231 => y <- b ;; z <- c ;; x <- a ;; ret (x, y, z)
  | O312 => z <- c ;; x <- a ;; y <- b ;; ret (x, y, z)
  | O321 => z <- c ;; y <- b ;; x <- a ;; ret (x, y, z)
  end.

(** Two calls, [b] first when [swap] holds. *)
Definition eval2 {A B} (swap : bool) (a : M A) (b : M B) : M (A * B) :=
  if swap then (y <- b ;; x <- a ;; ret (x, y))
  else (x <- a ;; y <- b ;; ret (x, y)).

(** [for (int i = 0; i < 1000000; i++) { if (hsi_accel_is_done()) break; }]
    as a recursion on the [n = 1000000 - i] iterations left. *)
Fixpoint main_poll (n : nat) : M unit :=
  match n with
  | O => ret tt
  | S n' =>
      d <- hsi_accel_is_done ;;
      if d then ret tt else main_poll n'
  end.

(** [main] of [main.c], its [printf] calls dropped (they do no bus access)
    and the values they print collected in a [report]; [o1] and [o2] are
    the evaluation orders of the two [printf] calls that call accessors. *)
Definition test_main (o1 : order3) (o2 : bool) : M (Z * report) :=
  hsi_accel_set_opcode TEST_OPCODE ;;
  r1 <- hsi_accel_get_opcode ;;
  hsi_accel_set_num_bands TEST_NUM_BANDS ;;
  r2 <- hsi_accel_get_num_bands ;;
  hsi_accel_start ;;
  main_poll (Z.to_nat 1000000) ;;
  r3 <- hsi_accel_get_status ;;
  dbe <- eval3 o1 hsi_accel_is_done hsi_accel_is_busy hsi_accel_get_error ;;
  hsi_accel_clear_done ;;
  hsi_accel_clear_error ;;
  r4 <- hsi_accel_get_status ;;
  de <- eval2 o2 hsi_accel_is_done hsi_accel_get_error ;;
  let '(d, b, e) := dbe in
  let '(d', e') := de in
  ret (0, {| rep_opcode := r1; rep_num_bands := r2; rep_status := r3;
             rep_done := d; rep_busy := b; rep_err := e;
             rep_status_post := r4; rep_done_post := d'; rep_err_post := e' |}).

End Driver.

(** ** Concrete devices

    Two simulated devices, used to exercise the theorems below on concrete
    inputs. *)

(** A device whose STATUS load number [n] (counting from 1) is the first to
    show DONE; its state is the number of STATUS loads served so far. *)
Definition poll_read (n : nat) (k : nat) (a : Z) : Z * nat :=
  if a =? STATUS_ADDR then ((if (n <=? S k)%nat then 1 else 0), S k)
  else (0, k).

Definition poll_write (k : nat) (_ _ : Z) : nat := k.

(** An emulated register file: OPCODE and NUM_BANDS are plain storage,
    COMMAND applies [command_effect] to STATUS, and START completes the
    operation at once without error (STATUS = 0x1). *)
Record regfile : Type := {
  rf_opcode : Z;
  rf_num_bands : Z;
  rf_status : Z
}.

Definition rf_read (r : regfile) (a : Z) : Z * regfile :=
  if a =? OPCODE_ADDR then (rf_opcode r, r)
  else if a =? NUM_BANDS_ADDR then (rf_num_bands r, r)
  else if a =? STATUS_ADDR then (rf_status r, r)
  else (0, r).

Definition rf_write (r : regfile) (a v : Z) : regfile :=
  if a =? OPCODE_ADDR then
    {| rf_opcode := v; rf_num_bands := rf_num_bands r; rf_status := rf_status r |}
  else if a =? NUM_BANDS_ADDR then
    {| rf_opcode := rf_opcode r; rf_num_bands := v; rf_status := rf_status r |}
  else if a =? COMMAND_ADDR then
    let st := command_effect v (rf_status r) in
    {| rf_opcode := rf_opcode r; rf_num_bands := rf_num_bands r;
       rf_status := if Z.testbit v HSI_ACCEL_CMD_START_BIT
                    then Z.lor st 1 else st |}
  else r.

(** ** Sanity checks on concrete inputs *)

Example mask_value : HSI_ACCEL_STATUS_ERROR_MASK = 30.
Proof. reflexivity. Qed.

Example scenario_done_no_error :
  let w0 := ({| rf_opcode := 0; rf_num_bands := 0; rf_status := 0 |}, []) in
  let w1 := snd (hsi_accel_init rf_write w0) in
  let w2 := snd (hsi_accel_configure rf_write 1 2 w1) in
  let w3 := snd (hsi_accel_launch rf_write w2) in
  fst (hsi_accel_wait_done rf_read 1 w3) = true /\
  fst (hsi_accel_error rf_read w3) = 0 /\
  fst (hsi_accel_is_busy rf_read w3) = false.
Proof. vm_compute. repeat split. Qed.

Example scenario_error_then_clear :
  let w0 := ({| rf_opcode := 1; rf_num_bands := 2; rf_status := 515 |}, []) in
  fst (hsi_accel_error rf_read w0) = 1 /\
  fst (hsi_accel_error rf_read (snd (hsi_accel_clear_error rf_write w0))) = 0 /\
  fst (hsi_accel_is_done rf_read (snd (hsi_accel_clear_error rf_write w0))) = true.
Proof. vm_compute. repeat split. Qed.

Example test_main_regfile :
  fst (test_main rf_read rf_write O123 false
         ({| rf_opcode := 0; rf_num_bands := 0; rf_status := 0 |}, [])) =
  (0, {| rep_opcode := 1; rep_num_bands := 2; rep_status := 1;
         rep_done := true; rep_busy := false; rep_err := 0;
         rep_status_post := 0; rep_done_post := false; rep_err_post := 0 |}).
Proof. vm_compute. reflexivity. Qed.

Example never_done_1000 :
  fst (hsi_accel_wait_done (poll_read 5000) 1000 (O, [])) = false /\
  length (snd (snd (hsi_accel_wait_done (poll_read 5000) 1000 (O, [])))) = 1000%nat.
Proof. vm_compute. split; reflexivity. Qed.

(** ** Properties of the driver *)

Section Proofs.

Context {St : Type}.
Context (bus_read : St -> Z -> Z * St).
Context (bus_write : St -> Z -> Z -> St).

(** *** Bit-level decoding *)

Lemma u32_small (x : Z) : 0 <= x < 2 ^ 32 -> u32 x = x.
Proof. intros H. unfold u32. apply Z.mod_small. exact H. Qed.

Lemma u32_range (x : Z) : 0 <= u32 x < 2 ^ 32.
Proof. unfold u32. apply Z.mod_pos_bound. lia. Qed.

Lemma u32_testbit (x i : Z) : i < 32 -> Z.testbit (u32 x) i = Z.testbit x i.
Proof.
  intros Hi. destruct (Z.ltb_spec i 0) as [Hneg | Hpos].
  - rewrite !Z.testbit_neg_r by lia. reflexivity.
  - unfold u32. apply Z.mod_pow2_bits_low. lia.
Qed.

(** [(v >> n) & 1], as a C boolean, is bit [n] of [v]. *)
Lemma bit_decode (v n : Z) :
  0 <= n -> to_bool (Z.land (Z.shiftr v n) 1) = Z.testbit v n.
Proof.
  intros Hn. unfold to_bool.
  assert (E : Z.land (Z.shiftr v n) 1 = Z.shiftr v n mod 2)
    by (apply (Z.land_ones (Z.shiftr v n) 1); lia).
  rewrite E, Zmod_odd, <- Z.bit0_odd, Z.shiftr_spec, Z.add_0_l by lia.
  destruct (Z.testbit v n); reflexivity.
Qed.

(** [(v & ERROR_MASK) >> ERROR_SHIFT] is the 4-bit field at bits 1-4. *)
Lemma error_field_eq (v : Z) :
  Z.shiftr (Z.land v HSI_ACCEL_STATUS_ERROR_MASK) HSI_ACCEL_STATUS_ERROR_SHIFT
  = status_error v.
Proof.
  unfold status_error. change HSI_ACCEL_STATUS_ERROR_MASK with 30.
  change HSI_ACCEL_STATUS_ERROR_SHIFT with 1.
  apply Z.bits_inj'. intros n Hn.
  rewrite Z.shiftr_spec, Z.land_spec by lia.
  destruct (Z.ltb_spec n 4) as [Hlt | Hge].
  - rewrite Z.mod_pow2_bits_low, Z.shiftr_spec by lia.
    assert (n = 0 \/ n = 1 \/ n = 2 \/ n = 3) as [-> | [-> | [-> | ->]]]
      by lia; cbn; apply andb_true_r.
  - rewrite Z.mod_pow2_bits_high by lia.
    rewrite (Z.bits_above_log2 30 (n + 1)) by (cbn; lia).
    apply andb_false_r.
Qed.

Lemma status_error_range (v : Z) : 0 <= status_error v < 16.
Proof. unfold status_error. apply Z.mod_pos_bound. lia. Qed.

Lemma status_error_u32 (v : Z) : status_error (u32 v) = status_error v.
Proof.
  unfold status_error. apply Z.bits_inj'. intros n Hn.
  destruct (Z.ltb_spec n 4).
  - rewrite !Z.mod_pow2_bits_low, !Z.shiftr_spec, u32_testbit by lia.
    reflexivity.
  - rewrite !Z.mod_pow2_bits_high by lia. reflexivity.
Qed.

Lemma status_error_zero (v : Z) :
  (forall i, 1 <= i <= 4 -> Z.testbit v i = false) -> status_error v = 0.
Proof.
  intros H. unfold status_error. apply Z.bits_inj_0. intros n.
  destruct (Z.ltb_spec n 0).
  - apply Z.testbit_neg_r. lia.
  - destruct (Z.ltb_spec n 4).
    + rewrite Z.mod_pow2_bits_low, Z.shiftr_spec by lia. apply H. lia.
    + apply Z.mod_pow2_bits_high. lia.
Qed.

Lemma status_error_ext (v v' : Z) :
  (forall i, 1 <= i <= 4 -> Z.testbit v i = Z.testbit v' i) ->
  status_error v = status_error v'.
Proof.
  intros H. unfold status_error. apply Z.bits_inj'. intros n Hn.
  destruct (Z.ltb_spec n 4).
  - rewrite !Z.mod_pow2_bits_low, !Z.shiftr_spec by lia. apply H. lia.
  - rewrite !Z.mod_pow2_bits_high by lia. reflexivity.
Qed.

(** *** Single register accesses *)

Lemma read_reg_eq (off : Z) (s : St) (log : list access) :
  hsi_accel_read_reg bus_read off (s, log) =
  (u32 (fst (bus_read s (reg_addr off))),
   (snd (bus_read s (reg_addr off)), log ++ [Rd (reg_addr off)])).
Proof.
  unfold hsi_accel_read_reg. destruct (bus_read s (reg_addr off)). reflexivity.
Qed.

Lemma get_status_eq (s : St) (log : list access) :
  hsi_accel_get_status bus_read (s, log) =
  (u32 (fst (bus_read s STATUS_ADDR)),
   (snd (bus_read s STATUS_ADDR), log ++ [Rd STATUS_ADDR])).
Proof. apply read_reg_eq. Qed.

Lemma is_done_eq (s : St) (log : list access) :
  hsi_accel_is_done bus_read (s, log) =
  (status_done (u32 (fst (bus_read s STATUS_ADDR))),
   (snd (bus_read s STATUS_ADDR), log ++ [Rd STATUS_ADDR])).
Proof.
  unfold hsi_accel_is_done, bind. rewrite get_status_eq. unfold ret.
  rewrite bit_decode by (cbv; discriminate). reflexivity.
Qed.

Lemma get_error_eq (s : St) (log : list access) :
  hsi_accel_get_error bus_read (s, log) =
  (status_error (u32 (fst (bus_read s STATUS_ADDR))),
   (snd (bus_read s STATUS_ADDR), log ++ [Rd STATUS_ADDR])).
Proof.
  unfold hsi_accel_get_error, bind. rewrite get_status_eq. unfold ret.
  rewrite error_field_eq. reflexivity.
Qed.

Lemma is_busy_eq (s : St) (log : list access) :
  hsi_accel_is_busy bus_read (s, log) =
  (status_busy (u32 (fst (bus_read s STATUS_ADDR))),
   (snd (bus_read s STATUS_ADDR), log ++ [Rd STATUS_ADDR])).
Proof.
  unfold hsi_accel_is_busy, bind. rewrite get_status_eq. unfold ret.
  rewrite bit_decode by (cbv; discriminate). reflexivity.
Qed.

(** *** The polling loop *)

Lemma wait_loop_not_done (n : nat) (s : St) (log : list access) :
  (forall k, (k < n)%nat -> status_done (poll_value bus_read s k) = false) ->
  wait_done_loop bus_read n (s, log) =
  (false, (poll_state bus_read s n, log ++ repeat (Rd STATUS_ADDR) n)).
Proof.
  revert s log. induction n as [| n IH]; intros s log H.
  - cbn. rewrite app_nil_r. reflexivity.
  - cbn [wait_done_loop]. unfold bind at 1. rewrite is_done_eq.
    change (u32 (fst (bus_read s STATUS_ADDR))) with (poll_value bus_read s 0).
    rewrite (H 0%nat) by lia.
    rewrite IH.
    + rewrite <- app_assoc. reflexivity.
    + intros k Hk. apply (H (S k)). lia.
Qed.

Lemma wait_loop_done (n j : nat) (s : St) (log : list access) :
  (j < n)%nat ->
  (forall k, (k < j)%nat -> status_done (poll_value bus_read s k) = false) ->
  status_done (poll_value bus_read s j) = true ->
  wait_done_loop bus_read n (s, log) =
  (true, (poll_state bus_read s (S j), log ++ repeat (Rd STATUS_ADDR) (S j))).
Proof.
  revert j s log. induction n as [| n IH]; intros j s log Hj Hbefore Hat.
  - lia.
  - cbn [wait_done_loop]. unfold bind at 1. rewrite is_done_eq.
    change (u32 (fst (bus_read s STATUS_ADDR))) with (poll_value bus_read s 0).
    destruct j as [| j].
    + rewrite Hat. reflexivity.
    + rewrite (Hbefore 0%nat) by lia.
      rewrite (IH j).
      * rewrite <- app_assoc. reflexivity.
      * lia.
      * intros k Hk. apply (Hbefore (S k)). lia.
      * exact Hat.
Qed.

Lemma wait_loop_frame (n : nat) (s : St) (log : list access) :
  exists k, (k <= n)%nat /\
  snd (wait_done_loop bus_read n (s, log)) =
  (poll_state bus_read s k, log ++ repeat (Rd STATUS_ADDR) k).
Proof.
  revert s log. induction n as [| n IH]; intros s log.
  - exists 0%nat. split; [lia |]. cbn. rewrite app_nil_r. reflexivity.
  - cbn [wait_done_loop]. unfold bind at 1. rewrite is_done_eq.
    destruct (status_done (u32 (fst (bus_read s STATUS_ADDR)))).
    + exists 1%nat. split; [lia | reflexivity].
    + destruct (IH (snd (bus_read s STATUS_ADDR)) (log ++ [Rd STATUS_ADDR]))
        as [k [Hk E]].
      exists (S k). split; [lia |]. rewrite E, <- app_assoc. reflexivity.
Qed.

(** *** Command values and the modelled COMMAND semantics *)

Lemma clear_done_eq (s : St) (log : list access) :
  hsi_accel_clear_done bus_write (s, log) =
  (tt, (bus_write s COMMAND_ADDR 2, log ++ [Wr COMMAND_ADDR 2])).
Proof. reflexivity. Qed.

Lemma clear_error_eq (s : St) (log : list access) :
  hsi_accel_clear_error bus_write (s, log) =
  (tt, (bus_write s COMMAND_ADDR 4, log ++ [Wr COMMAND_ADDR 4])).
Proof. reflexivity. Qed.

Lemma init_eq (s : St) (log : list access) :
  hsi_accel_init bus_write (s, log) =
  (tt, (bus_write (bus_write s COMMAND_ADDR 2) COMMAND_ADDR 4,
        log ++ [Wr COMMAND_ADDR 2; Wr COMMAND_ADDR 4])).
Proof.
  unfold hsi_accel_init, bind. rewrite clear_done_eq, clear_error_eq.
  rewrite <- app_assoc. reflexivity.
Qed.

Lemma configure_eq (opcode num_bands : Z) (s : St) (log : list access) :
  hsi_accel_configure bus_write opcode num_bands (s, log) =
  (tt, (bus_write (bus_write s OPCODE_ADDR (u32 opcode)) NUM_BANDS_ADDR (u32 num_bands),
        log ++ [Wr OPCODE_ADDR (u32 opcode); Wr NUM_BANDS_ADDR (u32 num_bands)])).
Proof.
  unfold hsi_accel_configure, bind. cbn [hsi_accel_set_opcode hsi_accel_set_num_bands].
  unfold hsi_accel_write_reg. cbn. rewrite <- app_assoc. reflexivity.
Qed.

Lemma command_clear_done_bits (y : Z) :
  Z.testbit (command_effect 2 y) 0 = false /\
  (forall i, 1 <= i -> Z.testbit (command_effect 2 y) i = Z.testbit y i).
Proof.
  unfold command_effect.
  replace (Z.testbit 2 HSI_ACCEL_CMD_CLEAR_DONE_BIT) with true by reflexivity.
  replace (Z.testbit 2 HSI_ACCEL_CMD_CLEAR_ERROR_BIT) with false by reflexivity.
  split.
  - apply Z.clearbit_eq.
  - intros i Hi. apply Z.clearbit_neq. change HSI_ACCEL_STATUS_DONE_BIT with 0. lia.
Qed.

Lemma command_clear_error_bits (y : Z) :
  Z.testbit (command_effect 4 y) 0 = Z.testbit y 0 /\
  (forall i, 1 <= i <= 4 -> Z.testbit (command_effect 4 y) i = false).
Proof.
  unfold command_effect.
  replace (Z.testbit 4 HSI_ACCEL_CMD_CLEAR_DONE_BIT) with false by reflexivity.
  replace (Z.testbit 4 HSI_ACCEL_CMD_CLEAR_ERROR_BIT) with true by reflexivity.
  change HSI_ACCEL_STATUS_ERROR_MASK with 30.
  split.
  - rewrite Z.land_spec, Z.lnot_spec by lia. cbn. apply andb_true_r.
  - intros i Hi. rewrite Z.land_spec, Z.lnot_spec by lia.
    assert (i = 1 \/ i = 2 \/ i = 3 \/ i = 4) as [-> | [-> | [-> | ->]]]
      by lia; cbn; apply andb_false_r.
Qed.

(** *** Claims *)

(** C1: on a device where DONE is first observed on the [N]-th STATUS poll
    (counted from the call, i.e. right after [launch]), [wait_done(t)] for a
    32-bit [t] reports completion exactly when [N <= t]; and on a device that
    never shows DONE, [wait_done(1000)] makes 1000 STATUS polls and returns
    [false]. *)
Theorem wait_done_first_done_poll (s : St) (log : list access) :
  (forall (N : nat) (t : Z),
     (1 <= N)%nat ->
     (forall k, (k < N - 1)%nat -> status_done (poll_value bus_read s k) = false) ->
     status_done (poll_value bus_read s (N - 1)) = true ->
     0 <= t < 2 ^ 32 ->
     fst (hsi_accel_wait_done bus_read t (s, log)) = (Z.of_nat N <=? t)) /\
  ((forall k, status_done (poll_value bus_read s k) = false) ->
   hsi_accel_wait_done bus_read 1000 (s, log) =
   (false, (poll_state bus_read s 1000, log ++ repeat (Rd STATUS_ADDR) 1000))).
Proof.
  split.
  - intros N t HN Hbefore Hat Ht. unfold hsi_accel_wait_done.
    rewrite u32_small by exact Ht.
    destruct (Z.leb_spec (Z.of_nat N) t) as [Hle | Hgt].
    + rewrite (wait_loop_done _ (N - 1)); [reflexivity | lia | exact Hbefore | exact Hat].
    + rewrite wait_loop_not_done; [reflexivity |].
      intros k Hk. apply Hbefore. lia.
  - intros Hnever. unfold hsi_accel_wait_done.
    change (Z.to_nat (u32 1000)) with 1000%nat.
    apply wait_loop_not_done. intros k _. apply Hnever.
Qed.

(** C2: [wait_done(0)] returns [false] and leaves the device and the access
    log untouched: no STATUS read takes place. *)
Theorem wait_done_zero_budget (s : St) (log : list access) :
  hsi_accel_wait_done bus_read 0 (s, log) = (false, (s, log)).
Proof. reflexivity. Qed.

(** C5: [wait_done] only ever reads STATUS: whatever the budget and the
    device, the calls it makes are [k] STATUS reads for some [k] within the
    budget, and the device ends in the state its own evolution under those
    [k] reads produces; nothing is written. *)
Theorem wait_done_reads_only_status (t : Z) (s : St) (log : list access) :
  exists k, (k <= Z.to_nat (u32 t))%nat /\
  snd (hsi_accel_wait_done bus_read t (s, log)) =
  (poll_state bus_read s k, log ++ repeat (Rd STATUS_ADDR) k).
Proof. apply wait_loop_frame. Qed.

(** C3: each STATUS accessor makes exactly one STATUS read of its own and
    decodes the 32-bit value [v] of that read: [is_done] is bit 0,
    [get_error] and [hsi_accel_error] are bits 1-4, [is_busy] is bit 8. *)
Theorem status_accessors_decode (s : St) (log : list access) :
  let v := u32 (fst (bus_read s STATUS_ADDR)) in
  let w' := (snd (bus_read s STATUS_ADDR), log ++ [Rd STATUS_ADDR]) in
  0 <= v < 2 ^ 32 /\
  hsi_accel_is_done bus_read (s, log) = (status_done v, w') /\
  hsi_accel_get_error bus_read (s, log) = (status_error v, w') /\
  hsi_accel_error bus_read (s, log) = (status_error v, w') /\
  hsi_accel_is_busy bus_read (s, log) = (status_busy v, w').
Proof.
  cbv zeta. split; [apply u32_range |].
  split; [apply is_done_eq |].
  split; [apply get_error_eq |].
  split; [apply get_error_eq | apply is_busy_eq].
Qed.

(** C8: whatever STATUS holds, [get_error] and [hsi_accel_error] return a
    value in [0..15]. *)
Theorem get_error_below_16 (w : World) :
  0 <= fst (hsi_accel_get_error bus_read w) < 16 /\
  0 <= fst (hsi_accel_error bus_read w) < 16.
Proof.
  destruct w as [s log]. unfold hsi_accel_error.
  rewrite get_error_eq. cbn [fst].
  split; apply status_error_range.
Qed.

(** C9: [launch] is one store of the value 1 to COMMAND and nothing else;
    the CLEAR_DONE and CLEAR_ERROR bits of that value are 0. *)
Theorem launch_writes_start_only (s : St) (log : list access) :
  hsi_accel_launch bus_write (s, log) =
  (tt, (bus_write s COMMAND_ADDR 1, log ++ [Wr COMMAND_ADDR 1])) /\
  Z.testbit 1 HSI_ACCEL_CMD_CLEAR_DONE_BIT = false /\
  Z.testbit 1 HSI_ACCEL_CMD_CLEAR_ERROR_BIT = false.
Proof. repeat split. Qed.

(** C10: [init] is two stores to COMMAND, first 0x2 (CLEAR_DONE alone),
    then 0x4 (CLEAR_ERROR alone), and no other access. *)
Theorem init_two_command_writes (s : St) (log : list access) :
  hsi_accel_init bus_write (s, log) =
  (tt, (bus_write (bus_write s COMMAND_ADDR 2) COMMAND_ADDR 4,
        log ++ [Wr COMMAND_ADDR 2; Wr COMMAND_ADDR 4])).
Proof. apply init_eq. Qed.

(** C4: on a backing store where a write to OPCODE or NUM_BANDS is seen by
    later reads of that register (so that an access to the other data
    register in between does not disturb it), [configure(opcode, num_bands)]
    followed by [get_opcode()] and [get_num_bands()] reads back exactly the
    two 32-bit values; the four accesses are the two plain stores and the two
    loads, with no check or transformation of the values. *)
Theorem configure_roundtrip (opcode num_bands : Z) (s : St) (log : list access) :
  0 <= opcode < 2 ^ 32 ->
  0 <= num_bands < 2 ^ 32 ->
  (forall s a v, (a = OPCODE_ADDR \/ a = NUM_BANDS_ADDR) ->
     fst (bus_read (bus_write s a v) a) = v) ->
  (forall s a b v, (a = OPCODE_ADDR \/ a = NUM_BANDS_ADDR) ->
     (b = OPCODE_ADDR \/ b = NUM_BANDS_ADDR) -> a <> b ->
     fst (bus_read (bus_write s b v) a) = fst (bus_read s a)) ->
  (forall s a b, (a = OPCODE_ADDR \/ a = NUM_BANDS_ADDR) ->
     (b = OPCODE_ADDR \/ b = NUM_BANDS_ADDR) -> a <> b ->
     fst (bus_read (snd (bus_read s b)) a) = fst (bus_read s a)) ->
  let w1 := snd (hsi_accel_configure bus_write opcode num_bands (s, log)) in
  let r1 := hsi_accel_get_opcode bus_read w1 in
  let r2 := hsi_accel_get_num_bands bus_read (snd r1) in
  fst r1 = opcode /\ fst r2 = num_bands /\
  snd (snd r2) = log ++ [Wr OPCODE_ADDR opcode; Wr NUM_BANDS_ADDR num_bands;
                         Rd OPCODE_ADDR; Rd NUM_BANDS_ADDR].
Proof.
  intros Hop Hnb Hsame Hwrite Hread. cbv zeta.
  rewrite configure_eq, !u32_small by assumption. cbn [snd].
  unfold hsi_accel_get_opcode, hsi_accel_get_num_bands.
  rewrite read_reg_eq. cbn [fst snd]. rewrite read_reg_eq. cbn [fst snd].
  change (reg_addr HSI_ACCEL_OPCODE_OFFSET) with OPCODE_ADDR.
  change (reg_addr HSI_ACCEL_NUM_BANDS_OFFSET) with NUM_BANDS_ADDR.
  assert (Hne : OPCODE_ADDR <> NUM_BANDS_ADDR) by (cbv; discriminate).
  split; [| split].
  - rewrite Hwrite by (auto || congruence). rewrite Hsame by auto.
    apply u32_small. assumption.
  - rewrite Hread by (auto || congruence). rewrite Hsame by auto.
    apply u32_small. assumption.
  - rewrite <- !app_assoc. reflexivity.
Qed.

(** C6: on a device whose STATUS reads return its status and whose COMMAND
    writes without START apply the documented clears, from any prior state,
    right after [init] [is_done] reports [false] and [get_error] (and
    [hsi_accel_error]) reports 0. *)
Theorem init_clears_done_and_error (dev_status : St -> Z) :
  (forall s, fst (bus_read s STATUS_ADDR) = dev_status s) ->
  (forall s v, Z.testbit v HSI_ACCEL_CMD_START_BIT = false ->
     dev_status (bus_write s COMMAND_ADDR v) = command_effect v (dev_status s)) ->
  forall (s : St) (log : list access),
  let w := snd (hsi_accel_init bus_write (s, log)) in
  fst (hsi_accel_is_done bus_read w) = false /\
  fst (hsi_accel_get_error bus_read w) = 0 /\
  fst (hsi_accel_error bus_read w) = 0.
Proof.
  intros Hrd Hcmd s log. cbv zeta. rewrite init_eq. cbn [snd].
  unfold hsi_accel_error. rewrite is_done_eq, get_error_eq. cbn [fst].
  rewrite Hrd, Hcmd, Hcmd by reflexivity.
  destruct (command_clear_done_bits (dev_status s)) as [D0 Di].
  destruct (command_clear_error_bits (command_effect 2 (dev_status s))) as [E0 Ei].
  unfold status_done. rewrite status_error_u32, u32_testbit by lia.
  rewrite E0, D0. split; [reflexivity |].
  assert (Z : status_error (command_effect 4 (command_effect 2 (dev_status s))) = 0)
    by (apply status_error_zero; exact Ei).
  split; exact Z.
Qed.

(** C7: [clear_done] is one COMMAND store of 0x2 and [clear_error] one
    COMMAND store of 0x4.  On a device honouring the documented COMMAND
    semantics, DONE reads as cleared after [clear_done] while ERROR_CODE reads
    as before it, and ERROR_CODE reads as 0 after [clear_error] while DONE
    reads as before it. *)
Theorem clear_flags_independent (dev_status : St -> Z) :
  (forall s, fst (bus_read s STATUS_ADDR) = dev_status s) ->
  (forall s v, Z.testbit v HSI_ACCEL_CMD_START_BIT = false ->
     dev_status (bus_write s COMMAND_ADDR v) = command_effect v (dev_status s)) ->
  forall (s : St) (log : list access),
  hsi_accel_clear_done bus_write (s, log) =
    (tt, (bus_write s COMMAND_ADDR 2, log ++ [Wr COMMAND_ADDR 2])) /\
  hsi_accel_clear_error bus_write (s, log) =
    (tt, (bus_write s COMMAND_ADDR 4, log ++ [Wr COMMAND_ADDR 4])) /\
  fst (hsi_accel_is_done bus_read (snd (hsi_accel_clear_done bus_write (s, log)))) = false /\
  fst (hsi_accel_get_error bus_read (snd (hsi_accel_clear_done bus_write (s, log))))
    = fst (hsi_accel_get_error bus_read (s, log)) /\
  fst (hsi_accel_get_error bus_read (snd (hsi_accel_clear_error bus_write (s, log)))) = 0 /\
  fst (hsi_accel_is_done bus_read (snd (hsi_accel_clear_error bus_write (s, log))))
    = fst (hsi_accel_is_done bus_read (s, log)).
Proof.
  intros Hrd Hcmd s log.
  rewrite clear_done_eq, clear_error_eq. cbn [snd].
  rewrite !is_done_eq, !get_error_eq. cbn [fst].
  rewrite !Hrd, !Hcmd by reflexivity.
  destruct (command_clear_done_bits (dev_status s)) as [D0 Di].
  destruct (command_clear_error_bits (dev_status s)) as [E0 Ei].
  unfold status_done. rewrite !status_error_u32, !u32_testbit by lia.
  split; [reflexivity |]. split; [reflexivity |].
  split; [exact D0 |].
  split; [apply status_error_ext; intros i Hi; apply Di; lia |].
  split; [apply status_error_zero; exact Ei | exact E0].
Qed.

End Proofs.

(** ** The theorems on the concrete devices *)

Lemma wait_done_first_done_poll_witness :
  fst (hsi_accel_wait_done (poll_read 3) 5 (0%nat, [])) = (Z.of_nat 3 <=? 5) /\
  hsi_accel_wait_done rf_read 1000
    ({| rf_opcode := 1; rf_num_bands := 2; rf_status := 256 |}, []) =
  (false, (poll_state rf_read
             {| rf_opcode := 1; rf_num_bands := 2; rf_status := 256 |} 1000,
           [] ++ repeat (Rd STATUS_ADDR) 1000)).
Proof.
  split.
  - apply (proj1 (wait_done_first_done_poll (poll_read 3) 0%nat [])).
    + lia.
    + intros k Hk. destruct k as [| [| k]]; [reflexivity | reflexivity | lia].
    + reflexivity.
    + lia.
  - apply (proj2 (wait_done_first_done_poll rf_read _ [])).
    intros k.
    assert (E : forall r, poll_state rf_read r k = r)
      by (induction k as [| k IH]; intros r; [reflexivity | apply IH]).
    unfold poll_value. rewrite E. reflexivity.
Defined.

Lemma configure_roundtrip_witness :
  let w1 := snd (hsi_accel_configure rf_write 7 3
                   ({| rf_opcode := 0; rf_num_bands := 0; rf_status := 0 |}, [])) in
  let r1 := hsi_accel_get_opcode rf_read w1 in
  let r2 := hsi_accel_get_num_bands rf_read (snd r1) in
  fst r1 = 7 /\ fst r2 = 3 /\
  snd (snd r2) = [] ++ [Wr OPCODE_ADDR 7; Wr NUM_BANDS_ADDR 3;
                        Rd OPCODE_ADDR; Rd NUM_BANDS_ADDR].
Proof.
  apply configure_roundtrip.
  - lia.
  - lia.
  - intros s a v [-> | ->]; reflexivity.
  - intros s a b v [-> | ->] [-> | ->] Hne; try congruence; reflexivity.
  - intros s a b [-> | ->] [-> | ->] Hne; try congruence; reflexivity.
Defined.

(** STATUS reads of the register file return [rf_status], and its COMMAND
    stores without START apply [command_effect]. *)
Lemma rf_status_read (r : regfile) : fst (rf_read r STATUS_ADDR) = rf_status r.
Proof. reflexivity. Qed.

Lemma rf_command_write (r : regfile) (v : Z) :
  Z.testbit v HSI_ACCEL_CMD_START_BIT = false ->
  rf_status (rf_write r COMMAND_ADDR v) = command_effect v (rf_status r).
Proof.
  intros H. unfold rf_write.
  replace (COMMAND_ADDR =? OPCODE_ADDR) with false by reflexivity.
  replace (COMMAND_ADDR =? NUM_BANDS_ADDR) with false by reflexivity.
  replace (COMMAND_ADDR =? COMMAND_ADDR) with true by reflexivity.
  cbn [rf_status]. rewrite H. reflexivity.
Qed.

Lemma init_clears_done_and_error_witness :
  let w := snd (hsi_accel_init rf_write
                  ({| rf_opcode := 1; rf_num_bands := 2; rf_status := 771 |}, [])) in
  fst (hsi_accel_is_done rf_read w) = false /\
  fst (hsi_accel_get_error rf_read w) = 0 /\
  fst (hsi_accel_error rf_read w) = 0.
Proof.
  apply (init_clears_done_and_error rf_read rf_write rf_status).
  - exact rf_status_read.
  - exact rf_command_write.
Defined.

Lemma clear_flags_independent_witness :
  let r := {| rf_opcode := 1; rf_num_bands := 2; rf_status := 515 |} in
  hsi_accel_clear_done rf_write (r, []) =
    (tt, (rf_write r COMMAND_ADDR 2, [] ++ [Wr COMMAND_ADDR 2])) /\
  hsi_accel_clear_error rf_write (r, []) =
    (tt, (rf_write r COMMAND_ADDR 4, [] ++ [Wr COMMAND_ADDR 4])) /\
  fst (hsi_accel_is_done rf_read (snd (hsi_accel_clear_done rf_write (r, [])))) = false /\
  fst (hsi_accel_get_error rf_read (snd (hsi_accel_clear_done rf_write (r, []))))
    = fst (hsi_accel_get_error rf_read (r, [])) /\
  fst (hsi_accel_get_error rf_read (snd (hsi_accel_clear_error rf_write (r, [])))) = 0 /\
  fst (hsi_accel_is_done rf_read (snd (hsi_accel_clear_error rf_write (r, []))))
    = fst (hsi_accel_is_done rf_read (r, [])).
Proof.
  apply (clear_flags_independent rf_read rf_write rf_status).
  - exact rf_status_read.
  - exact rf_command_write.
Defined.

(** ** Further properties: register discipline, polling, the example *)

Section More.

Context {St : Type}.
Context (bus_read : St -> Z -> Z * St).
Context (bus_write : St -> Z -> Z -> St).

(** *** Which registers each operation touches *)

Lemma ret_ok {A} (a : A) : accesses_ok (ret (St := St) a).
Proof.
  intros s log. exists []. split; [rewrite app_nil_r; reflexivity | reflexivity].
Qed.

Lemma bind_ok {A B} (m : M (St := St) A) (k : A -> M B) :
  accesses_ok m -> (forall a, accesses_ok (k a)) -> accesses_ok (bind m k).
Proof.
  intros Hm Hk s log. unfold bind.
  destruct (Hm s log) as [n1 [E1 F1]].
  destruct (m (s, log)) as [a [s' log']] eqn:Em. cbn in E1. subst log'.
  destruct (Hk a s' (log ++ n1)) as [n2 [E2 F2]].
  exists (n1 ++ n2). rewrite E2, app_assoc.
  split; [reflexivity | rewrite forallb_app, F1, F2; reflexivity].
Qed.

Lemma read_reg_ok (off : Z) :
  off = HSI_ACCEL_OPCODE_OFFSET \/ off = HSI_ACCEL_NUM_BANDS_OFFSET \/
  off = HSI_ACCEL_STATUS_OFFSET ->
  accesses_ok (hsi_accel_read_reg bus_read off).
Proof.
  intros Hoff s log. rewrite read_reg_eq. exists [Rd (reg_addr off)].
  split; [reflexivity |].
  destruct Hoff as [-> | [-> | ->]]; reflexivity.
Qed.

Lemma write_reg_ok (off v : Z) :
  off = HSI_ACCEL_OPCODE_OFFSET \/ off = HSI_ACCEL_NUM_BANDS_OFFSET \/
  off = HSI_ACCEL_COMMAND_OFFSET ->
  accesses_ok (hsi_accel_write_reg bus_write off v).
Proof.
  intros Hoff s log. exists [Wr (reg_addr off) (u32 v)].
  split; [reflexivity |].
  destruct Hoff as [-> | [-> | ->]]; reflexivity.
Qed.

Lemma get_status_ok : accesses_ok (hsi_accel_get_status bus_read).
Proof. apply read_reg_ok. auto. Qed.

Lemma is_done_ok : accesses_ok (hsi_accel_is_done bus_read).
Proof. apply bind_ok; [apply get_status_ok | intros; apply ret_ok]. Qed.

Lemma get_error_ok : accesses_ok (hsi_accel_get_error bus_read).
Proof. apply bind_ok; [apply get_status_ok | intros; apply ret_ok]. Qed.

Lemma is_busy_ok : accesses_ok (hsi_accel_is_busy bus_read).
Proof. apply bind_ok; [apply get_status_ok | intros; apply ret_ok]. Qed.

Lemma clear_done_ok : accesses_ok (hsi_accel_clear_done bus_write).
Proof. apply write_reg_ok. auto. Qed.

Lemma clear_error_ok : accesses_ok (hsi_accel_clear_error bus_write).
Proof. apply write_reg_ok. auto. Qed.

Lemma start_ok : accesses_ok (hsi_accel_start bus_write).
Proof. apply write_reg_ok. auto. Qed.

Lemma wait_done_loop_ok (n : nat) : accesses_ok (wait_done_loop bus_read n).
Proof.
  induction n as [| n IH]; cbn [wait_done_loop]; [apply ret_ok |].
  apply bind_ok; [apply is_done_ok |]. intros [|]; [apply ret_ok | exact IH].
Qed.

Lemma main_poll_ok (n : nat) : accesses_ok (main_poll bus_read n).
Proof.
  induction n as [| n IH]; cbn [main_poll]; [apply ret_ok |].
  apply bind_ok; [apply is_done_ok |]. intros [|]; [apply ret_ok | exact IH].
Qed.

Lemma eval3_ok {A B C} (o : order3) (a : M A) (b : M B) (c : M C) :
  accesses_ok a -> accesses_ok b -> accesses_ok c ->
  accesses_ok (eval3 (St := St) o a b c).
Proof.
  intros Ha Hb Hc.
  destruct o; cbn [eval3];
    repeat (apply bind_ok; [assumption | intros ?]); apply ret_ok.
Qed.

Lemma eval2_ok {A B} (sw : bool) (a : M A) (b : M B) :
  accesses_ok a -> accesses_ok b -> accesses_ok (eval2 (St := St) sw a b).
Proof.
  intros Ha Hb.
  destruct sw; cbn [eval2];
    repeat (apply bind_ok; [assumption | intros ?]); apply ret_ok.
Qed.

(** X1: every operation of the driver API only writes OPCODE, NUM_BANDS or
    COMMAND and only reads OPCODE, NUM_BANDS or STATUS: COMMAND is never read,
    STATUS never written and FIFO_STATUS never touched. *)
Theorem api_register_discipline :
  (forall c, accesses_ok (hsi_accel_set_opcode bus_write c)) /\
  accesses_ok (hsi_accel_get_opcode bus_read) /\
  (forall nb, accesses_ok (hsi_accel_set_num_bands bus_write nb)) /\
  accesses_ok (hsi_accel_get_num_bands bus_read) /\
  accesses_ok (hsi_accel_start bus_write) /\
  accesses_ok (hsi_accel_clear_done bus_write) /\
  accesses_ok (hsi_accel_clear_error bus_write) /\
  accesses_ok (hsi_accel_get_status bus_read) /\
  accesses_ok (hsi_accel_is_done bus_read) /\
  accesses_ok (hsi_accel_get_error bus_read) /\
  accesses_ok (hsi_accel_is_busy bus_read) /\
  accesses_ok (hsi_accel_init bus_write) /\
  (forall opcode nb, accesses_ok (hsi_accel_configure bus_write opcode nb)) /\
  accesses_ok (hsi_accel_launch bus_write) /\
  accesses_ok (hsi_accel_error bus_read) /\
  (forall t, accesses_ok (hsi_accel_wait_done bus_read t)).
Proof.
  repeat split.
  - intros c. apply write_reg_ok. auto.
  - apply read_reg_ok. auto.
  - intros nb. apply write_reg_ok. auto.
  - apply read_reg_ok. auto.
  - apply start_ok.
  - apply clear_done_ok.
  - apply clear_error_ok.
  - apply get_status_ok.
  - apply is_done_ok.
  - apply get_error_ok.
  - apply is_busy_ok.
  - apply bind_ok; [apply clear_done_ok | intros; apply clear_error_ok].
  - intros opcode nb. apply bind_ok; [apply write_reg_ok; auto |].
    intros. apply write_reg_ok. auto.
  - apply start_ok.
  - apply get_error_ok.
  - intros t. apply wait_done_loop_ok.
Qed.

(** X2: the example program keeps the same discipline, whatever order the
    arguments of its [printf] calls are evaluated in. *)
Theorem test_main_register_discipline (o1 : order3) (o2 : bool) :
  accesses_ok (test_main bus_read bus_write o1 o2).
Proof.
  unfold test_main.
  apply bind_ok; [apply write_reg_ok; auto | intros _].
  apply bind_ok; [apply read_reg_ok; auto | intros r1].
  apply bind_ok; [apply write_reg_ok; auto | intros _].
  apply bind_ok; [apply read_reg_ok; auto | intros r2].
  apply bind_ok; [apply start_ok | intros _].
  apply bind_ok; [apply main_poll_ok | intros _].
  apply bind_ok; [apply get_status_ok | intros r3].
  apply bind_ok;
    [apply eval3_ok; [apply is_done_ok | apply is_busy_ok | apply get_error_ok]
    | intros [[d b] e]].
  apply bind_ok; [apply clear_done_ok | intros _].
  apply bind_ok; [apply clear_error_ok | intros _].
  apply bind_ok; [apply get_status_ok | intros r4].
  apply bind_ok;
    [apply eval2_ok; [apply is_done_ok | apply get_error_ok] | intros [d' e']].
  apply ret_ok.
Qed.

(** *** The polling loop, without assumptions on the device *)

Lemma first_done_cases (n : nat) (s : St) :
  (exists j, (j < n)%nat /\
     (forall k, (k < j)%nat -> status_done (poll_value bus_read s k) = false) /\
     status_done (poll_value bus_read s j) = true) \/
  (forall k, (k < n)%nat -> status_done (poll_value bus_read s k) = false).
Proof.
  induction n as [| n [[j [Hj [Hb Ha]]] | Hnone]].
  - right. intros k Hk. lia.
  - left. exists j. split; [lia | auto].
  - destruct (status_done (poll_value bus_read s n)) eqn:Hn.
    + left. exists n. split; [lia | auto].
    + right. intros k Hk.
      destruct (Nat.eq_dec k n) as [-> | Hne]; [exact Hn | apply Hnone; lia].
Qed.

(** X3: [wait_done(t)] returns [true] exactly when one of the first [t]
    STATUS polls shows DONE. *)
Theorem wait_done_true_iff (t : Z) (s : St) (log : list access) :
  fst (hsi_accel_wait_done bus_read t (s, log)) = true <->
  exists k, (k < Z.to_nat (u32 t))%nat /\
            status_done (poll_value bus_read s k) = true.
Proof.
  unfold hsi_accel_wait_done.
  destruct (first_done_cases (Z.to_nat (u32 t)) s) as [[j [Hj [Hb Ha]]] | Hnone].
  - rewrite (wait_loop_done _ _ j) by assumption. cbn [fst].
    split; [intros _; exists j; auto | reflexivity].
  - rewrite wait_loop_not_done by assumption. cbn [fst].
    split; [discriminate |].
    intros [k [Hk Hd]]. rewrite Hnone in Hd by exact Hk. discriminate.
Qed.

(** X4: when [wait_done(t)] returns [true] it stops at the first poll that
    shows DONE: that is poll [j + 1] for some [j < t], no earlier poll showed
    DONE, and exactly [j + 1] STATUS reads were made. *)
Theorem wait_done_true_stops_at_first (t : Z) (s : St) (log : list access) :
  fst (hsi_accel_wait_done bus_read t (s, log)) = true ->
  exists j, (j < Z.to_nat (u32 t))%nat /\
    (forall k, (k < j)%nat -> status_done (poll_value bus_read s k) = false) /\
    status_done (poll_value bus_read s j) = true /\
    snd (hsi_accel_wait_done bus_read t (s, log)) =
    (poll_state bus_read s (S j), log ++ repeat (Rd STATUS_ADDR) (S j)).
Proof.
  unfold hsi_accel_wait_done. intros Htrue.
  destruct (first_done_cases (Z.to_nat (u32 t)) s) as [[j [Hj [Hb Ha]]] | Hnone].
  - exists j. rewrite (wait_loop_done _ _ j) by assumption. auto.
  - rewrite wait_loop_not_done in Htrue by assumption. discriminate.
Qed.

(** X5: when [wait_done(t)] returns [false] it has spent its whole budget:
    exactly [t] STATUS reads were made and none showed DONE. *)
Theorem wait_done_false_full_budget (t : Z) (s : St) (log : list access) :
  fst (hsi_accel_wait_done bus_read t (s, log)) = false ->
  (forall k, (k < Z.to_nat (u32 t))%nat ->
     status_done (poll_value bus_read s k) = false) /\
  snd (hsi_accel_wait_done bus_read t (s, log)) =
  (poll_state bus_read s (Z.to_nat (u32 t)),
   log ++ repeat (Rd STATUS_ADDR) (Z.to_nat (u32 t))).
Proof.
  unfold hsi_accel_wait_done. intros Hfalse.
  destruct (first_done_cases (Z.to_nat (u32 t)) s) as [[j [Hj [Hb Ha]]] | Hnone].
  - rewrite (wait_loop_done _ _ j) in Hfalse by assumption. discriminate.
  - rewrite wait_loop_not_done by assumption. auto.
Qed.

(** *** The example program *)

Lemma main_poll_loop (n : nat) (w : World) :
  snd (main_poll bus_read n w) = snd (wait_done_loop bus_read n w).
Proof.
  revert w. induction n as [| n IH]; intros w; [reflexivity |].
  cbn [main_poll wait_done_loop]. unfold bind.
  destruct (hsi_accel_is_done bus_read w) as [[|] w']; [reflexivity | apply IH].
Qed.

(** X6: the busy-wait loop of [main] makes exactly the bus accesses, and
    leaves the device in exactly the state, of [hsi_accel_wait_done(1000000)]. *)
Theorem main_poll_is_wait_done (w : World) :
  snd (main_poll bus_read (Z.to_nat 1000000) w) =
  snd (hsi_accel_wait_done bus_read 1000000 w).
Proof.
  unfold hsi_accel_wait_done. rewrite (u32_small 1000000) by lia.
  apply main_poll_loop.
Qed.

Lemma bind_unfold {A B} (m : M (St := St) A) (k : A -> M B) (w : World) :
  bind m k w = k (fst (m w)) (snd (m w)).
Proof. unfold bind. destruct (m w). reflexivity. Qed.

Lemma read_reg_w (off : Z) (w : World) :
  hsi_accel_read_reg bus_read off w =
  (u32 (fst (bus_read (fst w) (reg_addr off))),
   (snd (bus_read (fst w) (reg_addr off)), snd w ++ [Rd (reg_addr off)])).
Proof. destruct w as [s log]. apply read_reg_eq. Qed.

Lemma write_reg_w (off v : Z) (w : World) :
  hsi_accel_write_reg bus_write off v w =
  (tt, (bus_write (fst w) (reg_addr off) (u32 v),
        snd w ++ [Wr (reg_addr off) (u32 v)])).
Proof. destruct w as [s log]. reflexivity. Qed.

Lemma is_done_w (w : World) :
  hsi_accel_is_done bus_read w =
  (status_done (u32 (fst (bus_read (fst w) STATUS_ADDR))),
   (snd (bus_read (fst w) STATUS_ADDR), snd w ++ [Rd STATUS_ADDR])).
Proof. destruct w as [s log]. apply is_done_eq. Qed.

Lemma is_busy_w (w : World) :
  hsi_accel_is_busy bus_read w =
  (status_busy (u32 (fst (bus_read (fst w) STATUS_ADDR))),
   (snd (bus_read (fst w) STATUS_ADDR), snd w ++ [Rd STATUS_ADDR])).
Proof. destruct w as [s log]. apply is_busy_eq. Qed.

Lemma get_error_w (w : World) :
  hsi_accel_get_error bus_read w =
  (status_error (u32 (fst (bus_read (fst w) STATUS_ADDR))),
   (snd (bus_read (fst w) STATUS_ADDR), snd w ++ [Rd STATUS_ADDR])).
Proof. destruct w as [s log]. apply get_error_eq. Qed.

(** On a device whose STATUS does not change under STATUS reads, the three
    accessors, in any order, decode the value a single read would give. *)
Lemma eval3_stable (o : order3) (w : World) :
  (forall x, fst (bus_read (snd (bus_read x STATUS_ADDR)) STATUS_ADDR) =
             fst (bus_read x STATUS_ADDR)) ->
  let v := u32 (fst (bus_read (fst w) STATUS_ADDR)) in
  fst (eval3 o (hsi_accel_is_done bus_read) (hsi_accel_is_busy bus_read)
         (hsi_accel_get_error bus_read) w) =
  (status_done v, status_busy v, status_error v).
Proof.
  intros Hst. cbv zeta.
  destruct o; cbn [eval3]; repeat (rewrite bind_unfold; cbv beta); unfold ret;
    rewrite ?is_done_w, ?is_busy_w, ?get_error_w; cbn [fst snd];
    rewrite ?is_done_w, ?is_busy_w, ?get_error_w; cbn [fst snd];
    rewrite ?is_done_w, ?is_busy_w, ?get_error_w; cbn [fst snd];
    rewrite ?Hst, ?Hst; reflexivity.
Qed.

Lemma eval2_stable (sw : bool) (w : World) :
  (forall x, fst (bus_read (snd (bus_read x STATUS_ADDR)) STATUS_ADDR) =
             fst (bus_read x STATUS_ADDR)) ->
  let v := u32 (fst (bus_read (fst w) STATUS_ADDR)) in
  fst (eval2 sw (hsi_accel_is_done bus_read) (hsi_accel_get_error bus_read) w) =
  (status_done v, status_error v).
Proof.
  intros Hst. cbv zeta.
  destruct sw; cbn [eval2]; repeat (rewrite bind_unfold; cbv beta); unfold ret;
    rewrite ?is_done_w, ?get_error_w; cbn [fst snd];
    rewrite ?is_done_w, ?get_error_w; cbn [fst snd];
    rewrite ?Hst; reflexivity.
Qed.

(** X7: on a backing store where a write to OPCODE or NUM_BANDS is seen by
    the next read of that register, both read-back checks of [main] succeed:
    it reads OP_CODE = 0x1 and NUM_BANDS = 2 and prints "[OK]" twice. *)
Theorem test_main_readback_ok (o1 : order3) (o2 : bool) (w : World) :
  (forall s a v, (a = OPCODE_ADDR \/ a = NUM_BANDS_ADDR) ->
     fst (bus_read (bus_write s a v) a) = v) ->
  rep_opcode (snd (fst (test_main bus_read bus_write o1 o2 w))) = TEST_OPCODE /\
  rep_num_bands (snd (fst (test_main bus_read bus_write o1 o2 w))) = TEST_NUM_BANDS.
Proof.
  intros Hsame. unfold test_main. repeat (rewrite bind_unfold; cbv beta).
  destruct (fst (eval3 _ _ _ _ _)) as [[d b] e].
  destruct (fst (eval2 _ _ _ _)) as [d' e'].
  unfold ret. cbn [fst snd rep_opcode rep_num_bands].
  unfold hsi_accel_get_opcode, hsi_accel_set_opcode,
    hsi_accel_get_num_bands, hsi_accel_set_num_bands.
  rewrite !read_reg_w, !write_reg_w. cbn [fst snd].
  rewrite !Hsame by ((left; reflexivity) || (right; reflexivity)).
  split; reflexivity.
Qed.

(** X8: on a device whose STATUS does not change under STATUS reads, the
    DONE, BUSY and ERR values [main] prints next to a STATUS value are the
    fields of that value (after the wait and after the clears), whatever
    order C evaluates the [printf] arguments in. *)
Theorem test_main_fields_match_status (o1 : order3) (o2 : bool) (w : World) :
  (forall x, fst (bus_read (snd (bus_read x STATUS_ADDR)) STATUS_ADDR) =
             fst (bus_read x STATUS_ADDR)) ->
  let r := snd (fst (test_main bus_read bus_write o1 o2 w)) in
  rep_done r = status_done (rep_status r) /\
  rep_busy r = status_busy (rep_status r) /\
  rep_err r = status_error (rep_status r) /\
  rep_done_post r = status_done (rep_status_post r) /\
  rep_err_post r = status_error (rep_status_post r).
Proof.
  intros Hst. cbv zeta. unfold test_main. repeat (rewrite bind_unfold; cbv beta).
  rewrite eval3_stable, eval2_stable by exact Hst.
  unfold ret. cbn [fst snd rep_done rep_busy rep_err rep_status
                   rep_done_post rep_err_post rep_status_post].
  unfold hsi_accel_get_status. rewrite !read_reg_w. cbn [fst snd].
  change (reg_addr HSI_ACCEL_STATUS_OFFSET) with STATUS_ADDR.
  rewrite !Hst. repeat split.
Qed.

(** X9: on a device whose STATUS reads return its status, leave it
    unchanged, and whose COMMAND writes without START apply the documented
    clears, the STATUS [main] prints after [clear_done] and [clear_error] has
    DONE = 0 and ERROR_CODE = 0, and so do the DONE and ERR printed with it. *)
Theorem test_main_post_clear_zero (dev_status : St -> Z)
    (o1 : order3) (o2 : bool) (w : World) :
  (forall s, fst (bus_read s STATUS_ADDR) = dev_status s) ->
  (forall s, dev_status (snd (bus_read s STATUS_ADDR)) = dev_status s) ->
  (forall s v, Z.testbit v HSI_ACCEL_CMD_START_BIT = false ->
     dev_status (bus_write s COMMAND_ADDR v) = command_effect v (dev_status s)) ->
  let r := snd (fst (test_main bus_read bus_write o1 o2 w)) in
  status_done (rep_status_post r) = false /\
  status_error (rep_status_post r) = 0 /\
  rep_done_post r = false /\
  rep_err_post r = 0.
Proof.
  intros Hrd Hkeep Hcmd.
  assert (Hst : forall x, fst (bus_read (snd (bus_read x STATUS_ADDR)) STATUS_ADDR) =
                          fst (bus_read x STATUS_ADDR))
    by (intros x; rewrite !Hrd; apply Hkeep).
  cbv zeta. unfold test_main. repeat (rewrite bind_unfold; cbv beta).
  rewrite eval2_stable by exact Hst.
  destruct (fst (eval3 _ _ _ _ _)) as [[d b] e].
  unfold ret. cbn [fst snd rep_done_post rep_err_post rep_status_post].
  unfold hsi_accel_get_status, hsi_accel_clear_error, hsi_accel_clear_done.
  rewrite !read_reg_w, !write_reg_w. cbn [fst snd].
  change (reg_addr HSI_ACCEL_STATUS_OFFSET) with STATUS_ADDR.
  change (reg_addr HSI_ACCEL_COMMAND_OFFSET) with COMMAND_ADDR.
  rewrite !Hst, !Hrd.
  rewrite !Hcmd by reflexivity.
  change (u32 (Z.shiftl 1 HSI_ACCEL_CMD_CLEAR_DONE_BIT)) with 2.
  change (u32 (Z.shiftl 1 HSI_ACCEL_CMD_CLEAR_ERROR_BIT)) with 4.
  set (y := dev_status _).
  destruct (command_clear_done_bits y) as [D0 Di].
  destruct (command_clear_error_bits (command_effect 2 y)) as [E0 Ei].
  unfold status_done. rewrite status_error_u32, u32_testbit by lia.
  rewrite E0, D0.
  assert (Z : status_error (command_effect 4 (command_effect 2 y)) = 0)
    by (apply status_error_zero; exact Ei).
  rewrite Z. repeat split.
Qed.

End More.

Lemma wait_done_true_stops_at_first_witness :
  exists j, (j < Z.to_nat (u32 5))%nat /\
    (forall k, (k < j)%nat -> status_done (poll_value (poll_read 3) 0%nat k) = false) /\
    status_done (poll_value (poll_read 3) 0%nat j) = true /\
    snd (hsi_accel_wait_done (poll_read 3) 5 (0%nat, [])) =
    (poll_state (poll_read 3) 0%nat (S j), [] ++ repeat (Rd STATUS_ADDR) (S j)).
Proof.
  apply wait_done_true_stops_at_first. vm_compute. reflexivity.
Defined.

Lemma wait_done_false_full_budget_witness :
  let r := {| rf_opcode := 0; rf_num_bands := 0; rf_status := 0 |} in
  (forall k, (k < Z.to_nat (u32 4))%nat ->
     status_done (poll_value rf_read r k) = false) /\
  snd (hsi_accel_wait_done rf_read 4 (r, [])) =
  (poll_state rf_read r (Z.to_nat (u32 4)),
   [] ++ repeat (Rd STATUS_ADDR) (Z.to_nat (u32 4))).
Proof.
  apply wait_done_false_full_budget. vm_compute. reflexivity.
Defined.

Lemma test_main_readback_ok_witness :
  let w := ({| rf_opcode := 0; rf_num_bands := 0; rf_status := 0 |}, []) in
  rep_opcode (snd (fst (test_main rf_read rf_write O213 true w))) = TEST_OPCODE /\
  rep_num_bands (snd (fst (test_main rf_read rf_write O213 true w))) = TEST_NUM_BANDS.
Proof.
  apply test_main_readback_ok.
  intros s a v [-> | ->]; reflexivity.
Defined.

Lemma test_main_fields_match_status_witness :
  let r := snd (fst (test_main rf_read rf_write O321 false
                       ({| rf_opcode := 0; rf_num_bands := 0; rf_status := 0 |}, []))) in
  rep_done r = status_done (rep_status r) /\
  rep_busy r = status_busy (rep_status r) /\
  rep_err r = status_error (rep_status r) /\
  rep_done_post r = status_done (rep_status_post r) /\
  rep_err_post r = status_error (rep_status_post r).
Proof.
  apply test_main_fields_match_status.
  intros x. reflexivity.
Defined.

Lemma test_main_post_clear_zero_witness :
  let r := snd (fst (test_main rf_read rf_write O132 true
                       ({| rf_opcode := 0; rf_num_bands := 0; rf_status := 29 |}, []))) in
  status_done (rep_status_post r) = false /\
  status_error (rep_status_post r) = 0 /\
  rep_done_post r = false /\
  rep_err_post r = 0.
Proof.
  apply (test_main_post_clear_zero rf_read rf_write rf_status).
  - exact rf_status_read.
  - intros s. reflexivity.
  - exact rf_command_write.
Defined.
